(** * BFSI_VA: startup validation and session entrypoint of the voice assistant

    A shallow embedding of [BFSI_VA.py].  The module is a script: it loads
    two dotenv files, validates six environment variables, and, when run
    directly, hands the coroutine [entrypoint] to the LiveKit worker.

    The script is embedded in a state-and-exception monad [py].  The state
    holds what the script can read or change: [os.environ], the dotenv files
    on disk, what was printed, and the calls made into the LiveKit
    framework.  The only exception the script raises itself is
    [SystemExit]. *)

From Stdlib Require Import ZArith Ascii.
From stdpp Require Import base option list gmap strings.

Local Open Scope Z_scope.

(** ** Python strings

    A [str] is modelled by the bytes of its UTF-8 encoding; every label the
    script compares or searches for is ASCII. *)

Module PyStr.

(** The line feed written [\n] in a Python literal. *)
Definition LF : string := String "010"%char EmptyString.

(** [sep.join(l)] *)
Fixpoint join (sep : string) (l : list string) : string :=
  match l with
  | [] => EmptyString
  | x :: tl =>
      match tl with
      | [] => x
      | _ :: _ => x +:+ sep +:+ join sep tl
      end
  end.

(** [t.startswith(p)] *)
Fixpoint startswith (p t : string) : bool :=
  match p, t with
  | EmptyString, _ => true
  | String a p', String b t' => bool_decide (a = b) && startswith p' t'
  | String _ _, EmptyString => false
  end.

(** [p in t], by trying every offset from the left. *)
Fixpoint contains (p t : string) : bool :=
  startswith p t ||
  match t with
  | EmptyString => false
  | String _ t' => contains p t'
  end.

(** Truth value of what [os.getenv] returns: [None] and the empty
    string are false, any other string is true. *)
Definition truthy (v : option string) : bool :=
  match v with
  | Some (String _ _) => true
  | Some EmptyString | None => false
  end.

End PyStr.

(** ** The LiveKit framework, seen from the script

    Objects built by the framework are opaque references.  Each call the
    script makes is recorded with its arguments; what the call returns is
    the framework's choice.  A call is taken to return: the script catches
    nothing, so an exception raised inside the framework ends the script
    at that call and is the framework's to handle. *)

Definition obj := nat.

(** The one function of this module handed to the framework as a callback. *)
Inductive fn_ref : Set := fn_entrypoint.

Inductive call : Type :=
| VAD_load
    (* silero.VAD.load() *)
| AgentSession_new (stt llm tts : string) (vad : obj)
    (* AgentSession(stt=, llm=, tts=, vad=) *)
| Agent_init (instructions : string)
    (* Agent.__init__(instructions=), reached through Assistant() *)
| BVC_new
    (* noise_cancellation.BVC() *)
| RoomInputOptions_new (noise_cancellation : obj)
    (* RoomInputOptions(noise_cancellation=) *)
| Session_start (session room agent room_input_options : obj)
    (* await session.start(room=, agent=, room_input_options=) *)
| Session_generate_reply (session : obj) (instructions : string)
    (* await session.generate_reply(instructions=) *)
| WorkerOptions_new (entrypoint_fnc : fn_ref)
    (* agents.WorkerOptions(entrypoint_fnc=) *)
| Cli_run_app (opts : obj).
    (* agents.cli.run_app(opts) *)

(** [agents.JobContext]: the script reads only [ctx.room]. *)
Record JobContext : Type := { room : obj }.

(** A dotenv file as python-dotenv reads it: the dictionary of its
    bindings, a key written without [=] being bound to no value. *)
Abbreviation dotenv := (gmap string (option string)).

(** ** Process state and the [py] monad *)

Inductive exn : Type :=
| SystemExit (status : Z).

Inductive outcome (A : Type) : Type :=
| Normal (a : A)
| Raise (e : exn).
Arguments Normal {A} a.
Arguments Raise {A} e.

Section Process.

(** The framework's own state and its answer to each call. *)
Context {W : Type} (fw : call → W → obj * W).

Record process : Type := Process {
  environ : gmap string string;        (* os.environ *)
  disk : gmap string dotenv;           (* dotenv files, by path *)
  dotenv_loads : list string;          (* paths given to load_dotenv *)
  stdout : list string;                (* one entry per print() *)
  calls : list (call * obj);           (* framework calls and results *)
  world : W
}.

Definition py (A : Type) : Type := process → outcome A * process.

#[export] Instance py_ret : MRet py := λ A a s, (Normal a, s).

#[export] Instance py_bind : MBind py := λ A B k m s,
  match m s with
  | (Normal a, s') => k a s'
  | (Raise e, s') => (Raise e, s')
  end.

Definition raise {A : Type} (e : exn) : py A := λ s, (Raise e, s).

(** [os.getenv(k)] *)
Definition getenv (k : string) : py (option string) :=
  λ s, (Normal (environ s !! k), s).

(** [print(msg)] *)
Definition print (msg : string) : py unit :=
  λ s, (Normal (),
        Process (environ s) (disk s) (dotenv_loads s)
                (stdout s ++ [msg]) (calls s) (world s)).

(** A call into the framework: it is logged with the object returned. *)
Definition extern (c : call) : py obj :=
  λ s, let '(o, w) := fw c (world s) in
       (Normal o,
        Process (environ s) (disk s) (dotenv_loads s)
                (stdout s) (calls s ++ [(c, o)]) w).

(** The bindings [load_dotenv] finds at [path]: none when there is no
    such file. *)
Definition dotenv_values (d : gmap string dotenv) (path : string) : dotenv :=
  default ∅ (d !! path).

(** [load_dotenv(path)] of python-dotenv, with [override] left at its
    default [False]: a variable already in [os.environ] is kept, a key
    bound to no value sets nothing, and the result is [True] exactly when
    the file has at least one binding. *)
Definition load_dotenv (path : string) : py bool :=
  λ s, let vals := dotenv_values (disk s) path in
       (Normal (negb (bool_decide (vals = ∅))),
        Process (environ s ∪ omap id vals) (disk s)
                (dotenv_loads s ++ [path])
                (stdout s) (calls s) (world s)).

(** ** Lines 9-12: layered configuration load *)

Definition load_config : py unit :=
  loaded ← load_dotenv ".env.local";
  if negb loaded then _ ← load_dotenv ".env"; mret () else mret ().

(** ** Lines 14-34: startup validation *)

Definition REQUIRED_ENV : list string :=
  [ "LIVEKIT_URL";
    "LIVEKIT_API_KEY";
    "LIVEKIT_API_SECRET";
    "OPENAI_API_KEY";
    "CARTESIA_API_KEY";
    "DEEPGRAM_API_KEY" ].

(** [[k for k in names if not os.getenv(k)]] *)
Fixpoint missing_among (names : list string) : py (list string) :=
  match names with
  | [] => mret []
  | k :: names' =>
      v ← getenv k;
      rest ← missing_among names';
      mret (if PyStr.truthy v then rest else k :: rest)
  end.

(** The text handed to [print] on line 27. *)
Definition diagnostic (missing_str : string) : string :=
  "Missing required environment variables: "
  +:+ missing_str +:+ "." +:+ PyStr.LF
  +:+ "Create a .env.local file in the project folder (copy from .env.local.example) "
  +:+ "and fill in your credentials, then re-run this script.".

Definition validate : py unit :=
  missing ← missing_among REQUIRED_ENV;
  match missing with
  | _ :: _ =>
      let missing_str := PyStr.join ", " missing in
      _ ← print (diagnostic missing_str);
      raise (SystemExit 1)
  | [] => mret ()
  end.

(** ** Lines 37-160: the assistant *)

Definition Assistant_instructions : string :=
"You are the AI Voice & Chat Assistant for a Payment Aggregator platform.
Purpose: reduce onboarding drop-offs, answer merchant support queries, provide real-time transaction, settlement, refund, chargeback, and dispute information, gather feedback, and escalate unresolved or sensitive issues.
Audience: merchants integrating or operating on <COMPANY_NAME> and their end customers asking status questions. Internal support teams consume your structured conversation summaries.
Channels: voice calls (inbound/outbound), web chat widget, WhatsApp. Maintain consistency across channels.

Tone & Style:
- Professional, concise, empathetic, fintech-specific.
- No emojis, decorative symbols, excessive punctuation.
- Default to English; if user speaks Hindi, Tamil, Telugu, Bengali, Marathi (or mixes), respond first in that language, optionally append an English clarification if complexity warrants.
- Always be clear about next steps. Avoid jargon without brief explanation.

General Behavioral Rules:
1. Authenticate context when needed: ask for Merchant ID / registered phone / email if querying account-specific data (unless provided in metadata).
2. Never invent data. If a data point (KYC status, settlement date, refund status, chargeback reason) is unavailable from system tools, say it is not currently available and offer escalation.
3. Be proactive: if merchant indicates delay, suggest probable causes (KYC pending, bank holiday, threshold not met) before escalation.
4. Keep answers under ~35 spoken words unless giving step-by-step technical guidance.
5. Offer to send links when referencing dashboard locations: KYC upload, API docs, webhook testing, dispute evidence upload.
6. Escalate politely for: repeated failures, site/link errors, missing verification beyond SLA, chargeback appeal requests, negative sentiment + unresolved issue.
7. Capture feedback (1–5 rating) after resolving or attempting resolution.

Core Use Cases (must handle smoothly):
- KYC follow-up: status check, required documents, rejection reason, upload guidance, reminder scheduling.
- Integration assistance: API keys, environment mismatch, webhook troubleshooting, plugin/framework guidance.
- Settlement queries: last settlement, next expected date, delays with reasons.
- Refund queries: status, timeline, initiation process.
- Chargeback & disputes: definition, status, reason, evidence upload guidance, deadline reminders.
- Dispute follow-up: proactive reminder before evidence deadline.
- Merchant feedback collection post resolution or settlement completion.

Structured Response Patterns (adapt dynamically):
KYC Status: “Your KYC is <status>. Usual review time is 24–48 hours. Would you like the document list again?”
Documents Needed: “You need PAN, business proof (GST or registration), and bank proof (cancelled cheque or recent statement).”
Upload Help: “Use your dashboard → Settings → KYC Verification. I can resend a secure link. Files under 2MB in PDF/JPG/PNG.”
Integration API Keys: “Generate keys in Developer Dashboard → Settings → API Keys. Sandbox and live keys differ—confirm environment.”
Webhook Failure: “Ensure the URL returns HTTP 200 and is publicly reachable. You can trigger test events from Dashboard → Webhooks.”
Settlement Status: “Your last settlement of <AMOUNT> was credited on <DATE>. Next is scheduled for <DATE>. Need a detailed report?”
Refund Status: “Refund for transaction <TXN_ID> was initiated on <DATE>. Expected credit in 5–7 working days.”
Chargeback Status: “Chargeback for <TXN_ID> amount <AMOUNT> reason ‘<REASON>’. Please upload evidence by <DEADLINE>.”
Delay Apology: “Sorry for the delay. Possible causes: pending KYC, bank holiday, or review hold. I can escalate now if you wish.”
Escalation Offer: “I will escalate this to our <TEAM>. Please confirm preferred contact time.”
Feedback Prompt: “Was your issue resolved today? Please rate 1–5.”

Data Logging (instruction to internal system; do not read aloud unless asked):
- merchant_id
- pre_status (e.g., kyc_pending, dispute_open)
- issue_category (kyc_docs_missing, integration_error, settlement_delay, refund_status, chargeback_info, dispute_deadline, feedback)
- sentiment (positive, neutral, negative)
- outcome (completed, deferred, escalated)
- escalation_target (onboarding, finance, risk, tech_support)
- follow_up_required (yes/no)
If unavailable, mark fields as null rather than guessing.

Decision & Escalation Logic (implicit):
- KYC pending >48h after correct upload → flag onboarding escalation.
- Settlement delay beyond expected cycle + no bank holiday reason → escalate finance.
- Chargeback approaching deadline (<24h) → send reminder with evidence link.
- Repeated integration auth error after guidance → create tech_support ticket.
- Negative sentiment + unresolved status query → escalate tier 2.
Always confirm escalation action and summarize what was escalated.

Language Handling:
If user message entirely in Hindi (or another supported language), respond primarily in that language (example Hindi: “आपका KYC अभी पेंडिंग है, सामान्यतः 24–48 घंटे लगते हैं। क्या मैं डॉक्यूमेंट सूची फिर से भेज दूँ?”). Keep bilingual only if clarifying technical instructions.

Clarification Strategy:
If query ambiguous (e.g., “It’s pending”), ask a focused clarification: “Do you mean your KYC, settlement, or refund is pending?” before proceeding.

Safety & Compliance:
- Emphasize RBI compliance for KYC when asked why documents required.
- Do not ask for or store sensitive personal data beyond required merchant verification fields.
- If user requests insecure submission (email / chat file for sensitive docs), redirect to secure upload.

Negative Sentiment Handling:
Acknowledge + provide concrete action: “I understand the frustration. I’m tagging this for priority review and will escalate.”

Closing Patterns:
Resolution: “Glad I could help. You’ll receive confirmation shortly.”
Partial: “Some steps remain. I’ve scheduled follow-up and escalated for review.”
Unresolved: “Escalated now. Expect a response within business SLA.”

Do not:
- Hallucinate transaction IDs, amounts, or dates.
- Provide legal advice.
- Promise exact settlement times if data not fetched.
- Use emojis or decorative symbols.

Demo Mode / Dummy Data (for demos when live data isn’t available):
- Use these consistent sample values only when system integrations do not return data. Do not invent beyond these. Prefer clearly labeling as “Sample” unless the user indicates this is a demo.
- Merchant profile:
    • merchant_name: “Acme Retail Pvt Ltd”
    • merchant_id: “MCH-000123”
    • registered_phone: “+91-9876543210”
    • registered_email: “owner@acme.example”
- Settlements:
    • last_settlement_amount: “₹1,24,560” on “27 Oct 2025”
    • next_settlement_date: “29 Oct 2025”
- Refunds:
    • refund_txn_id: “TXN78412” amount “₹1,200” initiated “26 Oct 2025”, ETA “5–7 working days”
- Chargebacks:
    • chargeback_txn_id: “TXN98123” amount “₹5,400” reason “Product not delivered”, evidence_deadline “1 Nov 2025”
- KYC:
    • kyc_status: “under review” (typical 24–48 hours)
    • required_docs: PAN, business proof (GST/registration), bank proof (cancelled cheque/recent statement)
- Integration:
    • api_keys_location: “Developer Dashboard → Settings → API Keys”
    • webhook_note: “Ensure 200 OK and public reachability; test via Dashboard → Webhooks”
- Usage hints:
    • When asked “What’s my status?” and live data is unavailable, respond: “Sample data for demo — Your last settlement of ₹1,24,560 was credited on 27 Oct 2025. The next is scheduled for 29 Oct 2025. Shall I show how to find this in your dashboard?”
    • When asked for a specific transaction and none is found, say: “I don’t have live data. Here’s a sample flow using TXN78412 to show the steps. Would you like me to proceed?”

If requested data not accessible:
“Currently I cannot retrieve that information. I can escalate or you may check your dashboard reports. Which do you prefer?”

Initial Greeting (inbound voice):
“Hi, you’ve reached the support assistant for <COMPANY_NAME>. How can I help you today?”

Outbound KYC Reminder:
“Hi, we noticed your KYC is still pending. Would you like help completing it now?”

Maintain consistency, accuracy, brevity, empathy. Begin now and greet the user appropriately.".

(** [Assistant()]: [__init__] passes the instruction text to the base
    class and nothing else. *)
Definition Assistant_new : py obj :=
  extern (Agent_init Assistant_instructions).

(** ** Lines 163-183: the session entrypoint

    Arguments are evaluated left to right before each call, and each
    [await] is run to completion before the next statement. *)

Definition entrypoint (ctx : JobContext) : py unit :=
  vad ← extern VAD_load;
  session ← extern (AgentSession_new
                      "deepgram/nova-2-general:en"
                      "openai/gpt-4.1-mini"
                      "cartesia/sonic-3:9626c31c-bec5-4cca-baa8-f8ba9e84c8bc"
                      vad);
  agent ← Assistant_new;
  bvc ← extern BVC_new;
  options ← extern (RoomInputOptions_new bvc);
  _ ← extern (Session_start session (room ctx) agent options);
  _ ← extern (Session_generate_reply session
                "Hi u have Reached the suppoRt of bfsi how may i help u today .");
  mret ().

(** The body a callback reference stands for. *)
Definition fn_body (f : fn_ref) : JobContext → py unit :=
  match f with fn_entrypoint => entrypoint end.

(** ** The module, top to bottom

    [name_is_main] is [__name__ == "__main__"].  The [class] and [def]
    statements between validation and line 186 only bind names. *)

Definition module_body (name_is_main : bool) : py unit :=
  _ ← load_config;
  _ ← validate;
  if name_is_main then
    opts ← extern (WorkerOptions_new fn_entrypoint);
    _ ← extern (Cli_run_app opts);
    mret ()
  else mret ().

End Process.

Arguments process W : clear implicits.
Arguments py W A : clear implicits.

(** ** What a run adds to the state *)

Section Observations.

Context {W : Type}.
Implicit Types (s : process W) (e : gmap string string).

(** The process after running [m] from [s]. *)
Definition after {A : Type} (m : py W A) s : process W := (m s).2.

(** Framework calls made by [m] when run from [s]. *)
Definition issued {A : Type} (m : py W A) s : list (call * obj) :=
  drop (length (calls s)) (calls (after m s)).


(** The names among [names] whose value in [e] is false for Python. *)
Definition missing_in e (names : list string) : list string :=
  List.filter (λ k, negb (PyStr.truthy (e !! k))) names.

(** [s] with variable [k] removed from the environment. *)
Definition unsetenv (k : string) s : process W :=
  Process (delete k (environ s)) (disk s) (dotenv_loads s)
          (stdout s) (calls s) (world s).

(** The environment once both dotenv files had their turn. *)
Definition configured s : gmap string string := environ (after load_config s).

(** [m], run from [s], returns [a] in state [s'] after making the calls
    [l], and leaves the environment and the output as they were. *)
Definition steps {A : Type} (m : py W A) s (a : A)
    (l : list (call * obj)) (s' : process W) : Prop :=
  m s = (Normal a, s')
  ∧ calls s' = calls s ++ l
  ∧ environ s' = environ s
  ∧ stdout s' = stdout s.

End Observations.

(** Every selection of elements of [l], kept in the order of [l]. *)
Fixpoint selections {A : Type} (l : list A) : list (list A) :=
  match l with
  | [] => [[]]
  | x :: l' => ((x ::.) <$> selections l') ++ selections l'
  end.

(** ** Reading the call log *)





(** Instruction texts handed to [Agent.__init__], in call order. *)
Definition agent_instructions (l : list (call * obj)) : list string :=
  omap (λ co, match co.1 with Agent_init i => Some i | _ => None end) l.

(** Instruction texts handed to [generate_reply], in call order. *)
Definition reply_instructions (l : list (call * obj)) : list string :=
  omap (λ co, match co.1 with
              | Session_generate_reply _ i => Some i
              | _ => None
              end) l.

(** The labels of the structured response patterns the prompt must carry. *)
Definition template_labels : list string :=
  [ "KYC Status"; "Documents Needed"; "Settlement Status"; "Refund Status";
    "Chargeback Status"; "Delay Apology"; "Escalation Offer";
    "Feedback Prompt" ].

(** [p] occurs in [t] verbatim. *)
Definition occurs_in (p t : string) : Prop :=
  ∃ pre post, t = pre +:+ p +:+ post.

(** ** The specification's sentences that the code does not satisfy *)

Section Sentences.

Context {W : Type} (fw : call → W → obj * W).



End Sentences.

(** ** Concrete runs *)

(** A framework that numbers the objects it hands out. *)
Definition numbering : call → nat → obj * nat := λ _ n, (n, S n).

(** A process that has printed and called nothing yet. *)
Definition boot (e : gmap string string) (d : gmap string dotenv)
    : process nat :=
  Process e d [] [] [] 0%nat.

(** Every name of [names] bound to the same non-empty value. *)
Definition filled (names : list string) : gmap string string :=
  list_to_map ((λ k, (k, "secret")) <$> names).

(** A dotenv file binding every required key. *)
Definition complete_file : dotenv := Some <$> filled REQUIRED_ENV.

(** [LIVEKIT_URL] set but empty, [LIVEKIT_API_KEY] unset, the rest set. *)
Definition half_configured : process nat :=
  boot (<["LIVEKIT_URL" := EmptyString]>
          (filled ["LIVEKIT_API_SECRET"; "OPENAI_API_KEY";
                   "CARTESIA_API_KEY"; "DEEPGRAM_API_KEY"]))
       ∅.



(** No file, no variable. *)
Definition bare : process nat := boot ∅ ∅.

(** No file, all six variables exported by the caller. *)
Definition exported : process nat := boot (filled REQUIRED_ENV) ∅.

(** Splits a goal over the required names into one goal per name. *)
Ltac each_required :=
  let k := fresh "k" in
  let Hk := fresh "Hk" in
  intros k Hk; unfold REQUIRED_ENV in Hk;
  repeat (apply elem_of_cons in Hk as [->|Hk]);
  [..|by apply elem_of_nil in Hk].

(** ** Evaluation lemmas for the bootstrap *)

Section Bootstrap.

Context {W : Type}.
Implicit Types (s : process W) (e : gmap string string).

Lemma missing_among_eval names s :
  missing_among names s = (Normal (missing_in (environ s) names), s).
Proof.
  induction names as [|k names IH]; [done|].
  cbn [missing_among missing_in List.filter].
  unfold mbind, py_bind, getenv. rewrite IH. cbn.
  by destruct (PyStr.truthy (environ s !! k)).
Qed.

Lemma validate_eval s :
  validate s =
    match missing_in (environ s) REQUIRED_ENV with
    | [] => (Normal (), s)
    | (_ :: _) as missing =>
        (Raise (SystemExit 1),
         Process (environ s) (disk s) (dotenv_loads s)
                 (stdout s ++ [diagnostic (PyStr.join ", " missing)])
                 (calls s) (world s))
    end.
Proof.
  unfold validate, mbind, py_bind. rewrite missing_among_eval.
  by destruct (missing_in (environ s) REQUIRED_ENV).
Qed.


Lemma elem_of_missing_in e names k :
  k ∈ missing_in e names ↔ k ∈ names ∧ PyStr.truthy (e !! k) = false.
Proof.
  unfold missing_in. rewrite !list_elem_of_In, filter_In, negb_true_iff. done.
Qed.

Lemma missing_in_sublist e names : missing_in e names `sublist_of` names.
Proof.
  induction names as [|k names IH]; cbn; [constructor|].
  destruct (negb _); by constructor.
Qed.

Lemma missing_in_nil e names :
  missing_in e names = [] ↔ ∀ k, k ∈ names → PyStr.truthy (e !! k) = true.
Proof.
  split.
  - intros Hnil k Hk. destruct (PyStr.truthy (e !! k)) eqn:Hv; [done|].
    assert (k ∈ missing_in e names) as Hin by by apply elem_of_missing_in.
    rewrite Hnil in Hin. by apply elem_of_nil in Hin.
  - intros Hall. destruct (missing_in e names) as [|k l] eqn:Hm; [done|].
    assert (k ∈ missing_in e names) as Hin by (rewrite Hm; left).
    apply elem_of_missing_in in Hin as [Hk Hv]. rewrite (Hall k Hk) in Hv. done.
Qed.

(** [load_dotenv] never replaces a variable the environment already has. *)
Lemma load_dotenv_keeps path s k v :
  environ s !! k = Some v → environ (after (load_dotenv path) s) !! k = Some v.
Proof. intros Hk. cbn. by apply lookup_union_Some_l. Qed.

(** A variable the environment lacks takes the value the file binds. *)
Lemma load_dotenv_sets path s k :
  environ s !! k = None →
  environ (after (load_dotenv path) s) !! k
    = mjoin (dotenv_values (disk s) path !! k).
Proof.
  intros Hk. cbn. rewrite lookup_union_r by done.
  rewrite lookup_omap. by destruct (dotenv_values (disk s) path !! k).
Qed.

Lemma load_config_eval s :
  load_config s =
    (Normal (),
     if bool_decide (dotenv_values (disk s) ".env.local" = ∅)
     then after (load_dotenv ".env") (after (load_dotenv ".env.local") s)
     else after (load_dotenv ".env.local") s).
Proof.
  unfold load_config, mbind, py_bind. cbn.
  by destruct (bool_decide (dotenv_values (disk s) ".env.local" = ∅)).
Qed.

(** Loading configuration touches the environment and nothing else the
    later steps look at. *)
Lemma load_config_frame s :
  disk (after load_config s) = disk s
  ∧ stdout (after load_config s) = stdout s
  ∧ calls (after load_config s) = calls s
  ∧ world (after load_config s) = world s.
Proof.
  unfold after. rewrite load_config_eval. cbn.
  by destruct (bool_decide (dotenv_values (disk s) ".env.local" = ∅)).
Qed.

Lemma load_config_normal s : load_config s = (Normal (), after load_config s).
Proof. unfold after. by rewrite load_config_eval. Qed.

Section Module.

Context (fw : call → W → obj * W).

(** With a required variable missing the module stops in [validate]. *)
Lemma module_body_stops name_is_main s :
  missing_in (configured s) REQUIRED_ENV ≠ [] →
  module_body fw name_is_main s =
    (Raise (SystemExit 1),
     Process (configured s) (disk s) (dotenv_loads (after load_config s))
             (stdout s
                ++ [diagnostic
                      (PyStr.join ", " (missing_in (configured s) REQUIRED_ENV))])
             (calls s) (world s)).
Proof.
  intros Hmiss. destruct (load_config_frame s) as (Hd & Ho & Hc & Hw).
  unfold module_body, mbind, py_bind.
  rewrite load_config_normal, validate_eval. fold (configured s).
  destruct (missing_in (configured s) REQUIRED_ENV) as [|k l]; [done|].
  by rewrite Hd, Ho, Hc, Hw.
Qed.

(** With none missing it goes on to line 186. *)
Lemma module_body_proceeds name_is_main s :
  missing_in (configured s) REQUIRED_ENV = [] →
  module_body fw name_is_main s =
    if name_is_main
    then (opts ← extern fw (WorkerOptions_new fn_entrypoint);
          _ ← extern fw (Cli_run_app opts);
          mret ()) (after load_config s)
    else (Normal (), after load_config s).
Proof.
  intros Hmiss. unfold module_body. unfold mbind at 1 2, py_bind at 1 2.
  rewrite load_config_normal, validate_eval. fold (configured s).
  rewrite Hmiss. by destruct name_is_main.
Qed.

End Module.

End Bootstrap.

(** ** Sublists picked by a test

    A sublist of a duplicate-free list is fixed by its members: it is the
    filter of the list by membership. *)



Lemma elem_of_selections {A : Type} (S L : list A) :
  S `sublist_of` L → S ∈ selections L.
Proof.
  induction 1 as [|x S L _ IH|x S L _ IH]; cbn.
  - left.
  - apply elem_of_app. left. apply list_elem_of_fmap. by exists S.
  - apply elem_of_app. by right.
Qed.

Lemma diagnostic_table :
  forallb (λ S1,
    forallb (λ S2,
      implb (bool_decide (diagnostic (PyStr.join ", " S1)
                          = diagnostic (PyStr.join ", " S2)))
            (bool_decide (S1 = S2)))
      (selections REQUIRED_ENV))
    (selections REQUIRED_ENV) = true.
Proof. by vm_compute. Qed.

(** The message tells which names it lists: two selections of required
    names with the same message are the same selection. *)
Lemma diagnostic_determines_names (S1 S2 : list string) :
  S1 `sublist_of` REQUIRED_ENV → S2 `sublist_of` REQUIRED_ENV →
  diagnostic (PyStr.join ", " S1) = diagnostic (PyStr.join ", " S2) →
  S1 = S2.
Proof.
  intros H1%elem_of_selections%list_elem_of_In
         H2%elem_of_selections%list_elem_of_In Hmsg.
  pose proof (proj1 (forallb_forall _ _) diagnostic_table S1 H1) as Hrow.
  pose proof (proj1 (forallb_forall _ _) Hrow S2 H2) as Hcell.
  cbn beta in Hcell. rewrite (bool_decide_eq_true_2 _ Hmsg) in Hcell.
  by apply bool_decide_eq_true in Hcell.
Qed.

Lemma join_two_example :
  PyStr.join ", " ["LIVEKIT_URL"; "OPENAI_API_KEY"] = "LIVEKIT_URL, OPENAI_API_KEY".
Proof. reflexivity. Qed.

(** ** Startup: what validation reports, and when the module goes on *)

Section Startup.

Context {W : Type} (fw : call → W → obj * W).
Implicit Types (s : process W) (e : gmap string string).

(** One framework call, with what it returns written by projection. *)
Lemma extern_eval c s :
  extern fw c s =
    (Normal (fw c (world s)).1,
     Process (environ s) (disk s) (dotenv_loads s) (stdout s)
             (calls s ++ [(c, (fw c (world s)).1)])
             (fw c (world s)).2).
Proof. unfold extern. by destruct (fw c (world s)). Qed.

Lemma py_bind_eval {A B : Type} (m : py W A) (k : A → py W B) s :
  (m ≫= k) s =
    match m s with
    | (Normal a, s') => k a s'
    | (Raise e, s') => (Raise e, s')
    end.
Proof. reflexivity. Qed.

Lemma missing_in_delete e k names :
  PyStr.truthy (e !! k) = false →
  missing_in (delete k e) names = missing_in e names.
Proof.
  intros Hk. unfold missing_in. induction names as [|k' names IH]; [done|].
  cbn. rewrite IH. destruct (decide (k = k')) as [<-|Hne].
  - by rewrite lookup_delete_eq, Hk.
  - by rewrite lookup_delete_ne.
Qed.


(** C2.  If, once the dotenv files are loaded, some required variable is
    absent from the environment, the module raises [SystemExit(1)] and the
    framework has not been called at all: [Assistant()] was not evaluated,
    no [WorkerOptions] was built and [run_app] not reached, and no
    [session.start] took place. *)
Theorem absent_key_stops_before_any_call name_is_main s k :
  k ∈ REQUIRED_ENV →
  configured s !! k = None →
  ∃ s', module_body fw name_is_main s = (Raise (SystemExit 1), s')
        ∧ issued (module_body fw name_is_main) s = []
        ∧ calls s' = calls s
        ∧ world s' = world s.
Proof.
  intros Hk Habs.
  assert (missing_in (configured s) REQUIRED_ENV ≠ []) as Hmiss.
  { intros Hnil. rewrite missing_in_nil in Hnil.
    specialize (Hnil k Hk). by rewrite Habs in Hnil. }
  eexists. split; [by apply module_body_stops|].
  unfold issued, after. rewrite module_body_stops by done. cbn.
  by rewrite drop_all.
Qed.

(** C3.  If, once the dotenv files are loaded, every required variable
    has a non-empty value, then the module run as [__main__] prints
    nothing, raises nothing, and its only calls into the framework are
    [WorkerOptions(entrypoint_fnc=entrypoint)] followed by [run_app] on the
    options just built. *)
Theorem all_set_registers_entrypoint s :
  (∀ k, k ∈ REQUIRED_ENV →
        ∃ v, configured s !! k = Some v ∧ v ≠ EmptyString) →
  ∃ opts r s',
    module_body fw true s = (Normal (), s')
    ∧ stdout s' = stdout s
    ∧ calls s' = calls s ++ [(WorkerOptions_new fn_entrypoint, opts);
                             (Cli_run_app opts, r)]
    ∧ fn_body fw fn_entrypoint = entrypoint fw.
Proof.
  intros Hall.
  assert (missing_in (configured s) REQUIRED_ENV = []) as Hnone.
  { apply missing_in_nil. intros k Hk.
    destruct (Hall k Hk) as (v & -> & Hv). by destruct v. }
  destruct (load_config_frame s) as (_ & Ho & Hc & _).
  rewrite (module_body_proceeds fw true s Hnone).
  rewrite py_bind_eval, extern_eval, py_bind_eval, extern_eval. cbn.
  do 3 eexists. split; [done|]. cbn.
  by rewrite Ho, Hc, <- app_assoc.
Qed.



Lemma configured_eval s :
  configured s =
    let primary := dotenv_values (disk s) ".env.local" in
    if bool_decide (primary = ∅)
    then environ s ∪ omap id primary ∪ omap id (dotenv_values (disk s) ".env")
    else environ s ∪ omap id primary.
Proof.
  unfold configured, after. rewrite load_config_eval. cbn.
  by destruct (bool_decide (dotenv_values (disk s) ".env.local" = ∅)).
Qed.






(** C8.  A required variable set to the empty string is reported by
    [validate] among the missing ones and makes it raise [SystemExit(1)];
    removing the variable from the environment instead changes neither the
    exception nor the message. *)
Theorem empty_value_counts_as_missing s k :
  k ∈ REQUIRED_ENV →
  environ s !! k = Some EmptyString →
  ∃ names s',
    validate s = (Raise (SystemExit 1), s')
    ∧ stdout s' = stdout s ++ [diagnostic (PyStr.join ", " names)]
    ∧ k ∈ names
    ∧ validate (unsetenv k s) = (Raise (SystemExit 1), unsetenv k s').
Proof.
  intros Hk Hempty.
  assert (PyStr.truthy (environ s !! k) = false) as Hfalse by by rewrite Hempty.
  assert (k ∈ missing_in (environ s) REQUIRED_ENV) as Hin
    by by apply elem_of_missing_in.
  rewrite !validate_eval. cbn [environ unsetenv].
  rewrite (missing_in_delete _ _ _ Hfalse).
  destruct (missing_in (environ s) REQUIRED_ENV) as [|k0 l] eqn:Hm.
  { by apply elem_of_nil in Hin. }
  exists (k0 :: l). eexists. split; [reflexivity|]. by cbn.
Qed.


End Startup.

(** ** The session entrypoint and the assistant's instructions *)

Lemma startswith_sound p t :
  PyStr.startswith p t = true → ∃ post, t = p +:+ post.
Proof.
  revert t. induction p as [|a p IH]; intros t Hpt.
  - by exists t.
  - destruct t as [|b t]; [done|]. cbn in Hpt.
    apply andb_prop in Hpt as [Hab Hrest].
    apply bool_decide_eq_true in Hab as ->.
    destruct (IH t Hrest) as [post ->]. by exists post.
Qed.

Lemma contains_sound p t : PyStr.contains p t = true → occurs_in p t.
Proof.
  induction t as [|b t IH]; cbn; intros Hpt.
  - rewrite orb_false_r in Hpt.
    destruct (startswith_sound _ _ Hpt) as [post ->]. by exists EmptyString, post.
  - apply orb_prop in Hpt as [Hhere|Hlater].
    + destruct (startswith_sound _ _ Hhere) as [post ->].
      by exists EmptyString, post.
    + destruct (IH Hlater) as (pre & post & ->). by exists (String b pre), post.
Qed.

Lemma template_labels_found :
  forallb (λ l, PyStr.contains l Assistant_instructions) template_labels = true.
Proof. by vm_compute. Qed.

(** The prompt is 8701 bytes of UTF-8. *)
Lemma Assistant_instructions_length :
  Z.of_nat (String.length Assistant_instructions) = 8701.
Proof. by vm_compute. Qed.

Section Session.

Context {W : Type} (fw : call → W → obj * W).
Implicit Types (s : process W) (ctx : JobContext).

Lemma issued_app {A : Type} (m : py W A) s l :
  calls (after m s) = calls s ++ l → issued m s = l.
Proof. unfold issued. intros ->. apply drop_app_length. Qed.

Lemma steps_ret {A : Type} (a : A) s : steps (mret a) s a [] s.
Proof. unfold steps. by rewrite app_nil_r. Qed.

Lemma steps_extern c s : ∃ o s', steps (extern fw c) s o [(c, o)] s'.
Proof. do 2 eexists. unfold steps. by rewrite extern_eval. Qed.

Lemma steps_bind {A B : Type} (m : py W A) (k : A → py W B)
    s a l s' b l' s'' :
  steps m s a l s' → steps (k a) s' b l' s'' →
  steps (m ≫= k) s b (l ++ l') s''.
Proof.
  intros (Hm & Hc & He & Ho) (Hk & Hc' & He' & Ho').
  unfold steps. rewrite py_bind_eval, Hm, Hk, Hc', Hc, He', He, Ho', Ho.
  by rewrite app_assoc.
Qed.

(** [Assistant()] is one call of the base initialiser with the prompt. *)
Lemma steps_Assistant_new s :
  ∃ agent s',
    steps (Assistant_new fw) s agent
          [(Agent_init Assistant_instructions, agent)] s'.
Proof. apply steps_extern. Qed.

(** The entrypoint always runs to its end, and these are its calls. *)
Lemma entrypoint_steps ctx s :
  ∃ vad session agent bvc options started reply s',
    steps (entrypoint fw ctx) s ()
      [ (VAD_load, vad);
        (AgentSession_new
           "deepgram/nova-2-general:en"
           "openai/gpt-4.1-mini"
           "cartesia/sonic-3:9626c31c-bec5-4cca-baa8-f8ba9e84c8bc"
           vad, session);
        (Agent_init Assistant_instructions, agent);
        (BVC_new, bvc);
        (RoomInputOptions_new bvc, options);
        (Session_start session (room ctx) agent options, started);
        (Session_generate_reply session
           "Hi u have Reached the suppoRt of bfsi how may i help u today .",
         reply) ]
      s'.
Proof.
  destruct (steps_extern VAD_load s) as (vad & s1 & H1).
  destruct (steps_extern
              (AgentSession_new
                 "deepgram/nova-2-general:en"
                 "openai/gpt-4.1-mini"
                 "cartesia/sonic-3:9626c31c-bec5-4cca-baa8-f8ba9e84c8bc"
                 vad) s1) as (session & s2 & H2).
  destruct (steps_Assistant_new s2) as (agent & s3 & H3).
  destruct (steps_extern BVC_new s3) as (bvc & s4 & H4).
  destruct (steps_extern (RoomInputOptions_new bvc) s4)
    as (options & s5 & H5).
  destruct (steps_extern (Session_start session (room ctx) agent options) s5)
    as (started & s6 & H6).
  destruct (steps_extern
              (Session_generate_reply session
                 "Hi u have Reached the suppoRt of bfsi how may i help u today .")
              s6) as (reply & s7 & H7).
  exists vad, session, agent, bvc, options, started, reply, s7.
  unfold entrypoint.
  eapply (steps_bind _ _ _ _ [_]); [exact H1|].
  eapply (steps_bind _ _ _ _ [_]); [exact H2|].
  eapply (steps_bind _ _ _ _ [_]); [exact H3|].
  eapply (steps_bind _ _ _ _ [_]); [exact H4|].
  eapply (steps_bind _ _ _ _ [_]); [exact H5|].
  eapply (steps_bind _ _ _ _ [_]); [exact H6|].
  eapply (steps_bind _ _ _ _ [_] _ _ []); [exact H7|].
  apply steps_ret.
Qed.

Lemma steps_issued {A : Type} (m : py W A) s a l s' :
  steps m s a l s' → m s = (Normal a, s') ∧ issued m s = l.
Proof.
  intros (Hm & Hc & _). split; [done|].
  apply issued_app. unfold after. by rewrite Hm.
Qed.


(** C5.  The instruction text [Assistant()] hands to the agent base class
    is not empty, and each of the eight template labels occurs in it
    verbatim. *)
Theorem instructions_carry_template_labels s :
  ∃ agent i,
    issued (Assistant_new fw) s = [(Agent_init i, agent)]
    ∧ i ≠ EmptyString
    ∧ (∀ label, label ∈ template_labels → occurs_in label i).
Proof.
  destruct (steps_Assistant_new s) as (agent & s' & Hrun).
  apply steps_issued in Hrun as [_ Hcalls].
  exists agent, Assistant_instructions. split; [done|]. split.
  - intros Hnil. pose proof Assistant_instructions_length as Hlen.
    rewrite Hnil in Hlen. discriminate Hlen.
  - intros label Hlabel. apply contains_sound.
    apply list_elem_of_In in Hlabel.
    exact (proj1 (forallb_forall _ _) template_labels_found label Hlabel).
Qed.

End Session.

(** C10.  There are one instruction text and one greeting such that,
    for every framework, every process state (so every environment) and
    every job context, each construction of the assistant passes exactly
    that instruction text, and each invocation of the entrypoint passes
    exactly that instruction text to the assistant and exactly that
    greeting to [generate_reply]. *)
Theorem instructions_and_greeting_are_constants :
  ∃ instructions greeting : string,
    ∀ (W : Type) (fw : call → W → obj * W) (s : process W) (ctx : JobContext),
      agent_instructions (issued (Assistant_new fw) s) = [instructions]
      ∧ agent_instructions (issued (entrypoint fw ctx) s) = [instructions]
      ∧ reply_instructions (issued (entrypoint fw ctx) s) = [greeting].
Proof.
  exists Assistant_instructions,
    "Hi u have Reached the suppoRt of bfsi how may i help u today .".
  intros W fw s ctx.
  destruct (steps_Assistant_new fw s) as (agent & s1 & Hnew).
  apply steps_issued in Hnew as [_ ->].
  destruct (entrypoint_steps fw ctx s)
    as (vad & session & agent' & bvc & options & started & reply & s' & Hrun).
  apply steps_issued in Hrun as [_ ->].
  by repeat split.
Qed.

(** ** The concrete runs, evaluated *)






(** C2 at [bare]: [OPENAI_API_KEY] is absent and nothing is called. *)
Lemma absent_key_stops_before_any_call_witness :
  configured bare !! "OPENAI_API_KEY" = None
  ∧ ∃ s', module_body numbering true bare = (Raise (SystemExit 1), s')
          ∧ issued (module_body numbering true) bare = []
          ∧ calls s' = []
          ∧ world s' = 0%nat.
Proof.
  split; [by vm_compute|].
  apply (absent_key_stops_before_any_call numbering true bare "OPENAI_API_KEY").
  - unfold REQUIRED_ENV. do 3 right. left.
  - by vm_compute.
Defined.

(** C3 at [exported]: the worker is started with [entrypoint]. *)
Lemma all_set_registers_entrypoint_witness :
  ∃ opts r s',
    module_body numbering true exported = (Normal (), s')
    ∧ stdout s' = []
    ∧ calls s' = [(WorkerOptions_new fn_entrypoint, opts);
                  (Cli_run_app opts, r)]
    ∧ fn_body numbering fn_entrypoint = entrypoint numbering.
Proof.
  apply (all_set_registers_entrypoint numbering exported).
  each_required; eexists; (split; [by vm_compute|discriminate]).
Defined.



(** C8 at [half_configured]: the empty [LIVEKIT_URL] is reported. *)
Lemma empty_value_counts_as_missing_witness :
  environ half_configured !! "LIVEKIT_URL" = Some EmptyString
  ∧ ∃ names s',
      validate half_configured = (Raise (SystemExit 1), s')
      ∧ stdout s' = [diagnostic (PyStr.join ", " names)]
      ∧ "LIVEKIT_URL" ∈ names
      ∧ validate (unsetenv "LIVEKIT_URL" half_configured)
        = (Raise (SystemExit 1), unsetenv "LIVEKIT_URL" s').
Proof.
  split; [by vm_compute|].
  apply (empty_value_counts_as_missing half_configured "LIVEKIT_URL").
  - left.
  - by vm_compute.
Defined.


(** * Further properties of the script *)

(** ** Observations used below *)

(** What [m] prints when run from [s]. *)
Definition printed_by {W A : Type} (m : py W A) (s : process W) : list string :=
  drop (length (stdout s)) (stdout (after m s)).



(** [.env.local] holds two keys only, one of them blank; [.env] is complete. *)
Definition partial_primary : process nat :=
  boot ∅ {[ ".env.local" :=
              {[ "LIVEKIT_URL" := Some "wss://example.livekit.cloud";
                 "OPENAI_API_KEY" := Some EmptyString ]};
            ".env" := complete_file ]}.


(** The same variables missing as in [half_configured], other values. *)
Definition other_secrets : process nat :=
  boot (<["DEEPGRAM_API_KEY" := "dg-0000"]>
          (<["EDITOR" := "vi"]>
             (filled ["LIVEKIT_API_SECRET"; "OPENAI_API_KEY";
                      "CARTESIA_API_KEY"])))
       ∅.

(** ** Lines 9-12: how the two files and the environment are layered *)

Section Layering.

Context {W : Type}.
Implicit Types (s : process W).

Lemma union_absorb_one (e a : gmap string string) : e ∪ a ∪ a = e ∪ a.
Proof.
  apply map_eq. intros i. rewrite !lookup_union.
  by destruct (e !! i), (a !! i).
Qed.

Lemma union_absorb_two (e a b : gmap string string) :
  e ∪ a ∪ b ∪ a ∪ b = e ∪ a ∪ b.
Proof.
  apply map_eq. intros i. rewrite !lookup_union.
  by destruct (e !! i), (a !! i), (b !! i).
Qed.


(** X2.  Loading the configuration a second time changes nothing. *)
Theorem load_config_idempotent s :
  environ (after load_config (after load_config s)) = configured s.
Proof.
  fold (configured (after load_config s)).
  rewrite (configured_eval (after load_config s)).
  destruct (load_config_frame s) as (-> & _). fold (configured s).
  rewrite (configured_eval s). cbn zeta.
  destruct (bool_decide (dotenv_values (disk s) ".env.local" = ∅)).
  - apply union_absorb_two.
  - apply union_absorb_one.
Qed.

End Layering.

(** ** Lines 9-34 and 186-187: when the worker is started *)

Section Worker.

Context {W : Type} (fw : call → W → obj * W).
Implicit Types (s : process W).


Lemma printed_by_app {A : Type} (m : py W A) s l :
  stdout (after m s) = stdout s ++ l → printed_by m s = l.
Proof. unfold printed_by. intros ->. apply drop_app_length. Qed.

(** With a non-empty [.env.local] the second file has no say. *)
Lemma configured_primary_only s :
  dotenv_values (disk s) ".env.local" ≠ ∅ →
  configured s = environ s ∪ omap id (dotenv_values (disk s) ".env.local").
Proof.
  intros Hne. rewrite configured_eval. cbn zeta.
  by rewrite bool_decide_eq_false_2.
Qed.

(** X3.  The fallback is all or nothing.  Once [.env.local] has any
    binding, a required variable that the ambient environment lacks and
    that [.env.local] leaves out or leaves blank is reported as missing and
    the module exits with status 1 before any framework call, whatever
    [.env] contains. *)
Theorem partial_primary_hides_secondary name_is_main s k :
  k ∈ REQUIRED_ENV →
  environ s !! k = None →
  dotenv_values (disk s) ".env.local" ≠ ∅ →
  (∀ v, dotenv_values (disk s) ".env.local" !! k = Some (Some v)
        → v = EmptyString) →
  ∃ names s',
    module_body fw name_is_main s = (Raise (SystemExit 1), s')
    ∧ printed_by (module_body fw name_is_main) s
      = [diagnostic (PyStr.join ", " names)]
    ∧ k ∈ names
    ∧ calls s' = calls s.
Proof.
  intros Hk Hamb Hprimary Hblank.
  assert (PyStr.truthy (configured s !! k) = false) as Hfalse.
  { rewrite (configured_primary_only s Hprimary).
    rewrite lookup_union_r, lookup_omap by done.
    destruct (dotenv_values (disk s) ".env.local" !! k) as [[v|]|] eqn:Hv;
      [|done..].
    by rewrite (Hblank v eq_refl). }
  assert (k ∈ missing_in (configured s) REQUIRED_ENV) as Hin
    by by apply elem_of_missing_in.
  assert (missing_in (configured s) REQUIRED_ENV ≠ []) as Hmiss.
  { intros Hnil. rewrite Hnil in Hin. by apply elem_of_nil in Hin. }
  exists (missing_in (configured s) REQUIRED_ENV). eexists.
  split; [by apply module_body_stops|]. split; [|done].
  apply printed_by_app. unfold after.
  by rewrite (module_body_stops fw name_is_main s Hmiss).
Qed.



End Worker.

(** ** Lines 24-34: what the diagnostic tells, and what it does not *)

Lemma startswith_complete p post : PyStr.startswith p (p +:+ post) = true.
Proof.
  induction p as [|a p IH]; [done|].
  change (String a p +:+ post) with (String a (p +:+ post)).
  cbn [PyStr.startswith]. rewrite IH, andb_true_r.
  by apply bool_decide_eq_true.
Qed.

Lemma contains_here p t : PyStr.startswith p t = true → PyStr.contains p t = true.
Proof. intros Hpt. destruct t; cbn; by rewrite Hpt. Qed.

Lemma contains_complete p t : occurs_in p t → PyStr.contains p t = true.
Proof.
  intros (pre & post & ->). induction pre as [|a pre IH].
  - change (EmptyString +:+ p +:+ post) with (p +:+ post).
    apply contains_here, startswith_complete.
  - change (String a pre +:+ p +:+ post)
      with (String a (pre +:+ p +:+ post)).
    cbn [PyStr.contains]. rewrite IH. apply orb_true_r.
Qed.

(** For every selection of required names, the names found in its
    message are those selected. *)
Lemma diagnostic_mentions_table :
  forallb (λ S,
    forallb (λ k,
      bool_decide (PyStr.contains k (diagnostic (PyStr.join ", " S))
                   = bool_decide (k ∈ S)))
      REQUIRED_ENV)
    (selections REQUIRED_ENV) = true.
Proof. by vm_compute. Qed.

Section Diagnostic.

Context {W : Type}.
Implicit Types (s : process W).

Lemma printed_by_validate s :
  printed_by validate s =
    match missing_in (environ s) REQUIRED_ENV with
    | [] => []
    | (_ :: _) as names => [diagnostic (PyStr.join ", " names)]
    end.
Proof.
  apply printed_by_app. unfold after. rewrite validate_eval.
  destruct (missing_in (environ s) REQUIRED_ENV); cbn; [|done].
  by rewrite app_nil_r.
Qed.

(** X5.  When validation fails, the one line it prints mentions a
    required variable by name exactly when that variable is missing: every
    missing name can be read in the message, and no other required name
    occurs anywhere in it. *)
Theorem diagnostic_mentions_exactly_missing s k :
  k ∈ REQUIRED_ENV →
  (validate s).1 ≠ Normal () →
  ∃ msg,
    printed_by validate s = [msg]
    ∧ (occurs_in k msg ↔ PyStr.truthy (environ s !! k) = false).
Proof.
  intros Hk Hfail.
  pose proof (missing_in_sublist (environ s) REQUIRED_ENV) as Hsub.
  apply elem_of_selections, list_elem_of_In in Hsub.
  pose proof (proj1 (forallb_forall _ _) diagnostic_mentions_table _ Hsub)
    as Hrow. cbn beta in Hrow.
  pose proof (proj1 (forallb_forall _ _) Hrow k
                (proj1 (list_elem_of_In _ _) Hk)) as Hcell.
  cbn beta in Hcell. apply bool_decide_eq_true in Hcell.
  rewrite printed_by_validate. rewrite validate_eval in Hfail.
  destruct (missing_in (environ s) REQUIRED_ENV) as [|k0 l] eqn:Hm; [done|].
  eexists. split; [reflexivity|].
  rewrite <- (negb_true_iff (PyStr.truthy _)).
  assert (k ∈ k0 :: l ↔ negb (PyStr.truthy (environ s !! k)) = true) as Hmem.
  { rewrite <- Hm, elem_of_missing_in, negb_true_iff.
    split; [by intros [_ Hv]|by intros Hv]. }
  rewrite <- Hmem. split.
  - intros Hocc%contains_complete. rewrite Hcell in Hocc.
    by apply bool_decide_eq_true in Hocc.
  - intros Hin. apply contains_sound. rewrite Hcell.
    by apply bool_decide_eq_true.
Qed.

(** X6.  Validation looks at nothing but which required variables are
    empty or unset.  Two environments that agree on that, however they
    differ in the values of the variables or in other variables, get the
    same outcome and the same message: no value reaches the output. *)
Theorem validate_ignores_values s1 s2 :
  (∀ k, k ∈ REQUIRED_ENV →
        PyStr.truthy (environ s1 !! k) = PyStr.truthy (environ s2 !! k)) →
  (validate s1).1 = (validate s2).1
  ∧ printed_by validate s1 = printed_by validate s2.
Proof.
  intros Hsame.
  assert (missing_in (environ s1) REQUIRED_ENV
          = missing_in (environ s2) REQUIRED_ENV) as Heq.
  { unfold missing_in. apply filter_ext_in. intros k Hk.
    by rewrite (Hsame k) by by apply list_elem_of_In. }
  rewrite !printed_by_validate, !validate_eval, Heq.
  by destruct (missing_in (environ s2) REQUIRED_ENV).
Qed.

End Diagnostic.

(** ** Lines 163-183: what the entrypoint depends on *)

Section Entrypoint.

Context {W : Type} (fw : call → W → obj * W).
Implicit Types (s : process W) (ctx : JobContext).






End Entrypoint.

(** ** The further properties at concrete runs *)

(** X3 at [partial_primary]: [.env] binds [OPENAI_API_KEY], but the blank
    entry of [.env.local] is what counts. *)
Lemma partial_primary_hides_secondary_witness :
  dotenv_values (disk partial_primary) ".env" !! "OPENAI_API_KEY"
  = Some (Some "secret")
  ∧ ∃ names s',
      module_body numbering true partial_primary = (Raise (SystemExit 1), s')
      ∧ printed_by (module_body numbering true) partial_primary
        = [diagnostic (PyStr.join ", " names)]
      ∧ "OPENAI_API_KEY" ∈ names
      ∧ calls s' = [].
Proof.
  split; [by vm_compute|].
  apply (partial_primary_hides_secondary numbering true partial_primary
           "OPENAI_API_KEY").
  - unfold REQUIRED_ENV. do 3 right. left.
  - by vm_compute.
  - intros Hempty.
    apply (f_equal (λ m : dotenv, m !! "LIVEKIT_URL")) in Hempty.
    vm_compute in Hempty. discriminate Hempty.
  - intros v Hv. vm_compute in Hv. by injection Hv as <-.
Defined.

(** X5 at [half_configured], for the empty [LIVEKIT_URL]. *)
Lemma diagnostic_mentions_exactly_missing_witness :
  ∃ msg,
    printed_by validate half_configured = [msg]
    ∧ (occurs_in "LIVEKIT_URL" msg
       ↔ PyStr.truthy (environ half_configured !! "LIVEKIT_URL") = false).
Proof.
  apply (diagnostic_mentions_exactly_missing half_configured "LIVEKIT_URL").
  - left.
  - vm_compute. discriminate.
Defined.

(** X6 at two environments with different secrets and the same gaps. *)
Lemma validate_ignores_values_witness :
  environ half_configured ≠ environ other_secrets
  ∧ (validate half_configured).1 = (validate other_secrets).1
  ∧ printed_by validate half_configured = printed_by validate other_secrets.
Proof.
  split.
  - intros Heq.
    apply (f_equal (λ m : gmap string string, m !! "EDITOR")) in Heq.
    vm_compute in Heq. discriminate Heq.
  - apply (validate_ignores_values half_configured other_secrets).
    each_required; by vm_compute.
Defined.


